(** * Notification subsystem: ban-status signal handler and unread-message task

    A shallow embedding of
      - [API/run_mcdc_demo.py]  ([notify_user_ban_status_change], the mock
        classes it runs on), and
      - [API/chat/tasks.py]     ([send_new_message_notifications]),
    together with the properties the specification states about them.

    Python code that performs calls on collaborators (the ORM manager, the
    mail backend, [print]) is written in a small state-and-exception monad
    whose state is the trace of the calls made so far. *)

From Stdlib Require Import ZArith List String Ascii Bool Arith Lia Permutation.
From Stdlib Require Import DecimalString.
Import ListNotations.

Local Open Scope string_scope.
Local Open Scope list_scope.

(* ================================================================== *)
(** ** The fragment of Python the two functions use *)
(* ================================================================== *)

Module Py.

(** Values that reach [instance.pk] or are returned by the handler:
    [None], an [int], a [str]. *)
Inductive value : Type :=
| VNone
| VInt (z : Z)
| VStr (s : string).

(** [bool(v)]: [None], [0] and the empty string are falsy. *)
Definition truthy (v : value) : bool :=
  match v with
  | VNone => false
  | VInt z => negb (z =? 0)%Z
  | VStr s => negb (s =? "")
  end.

(** The exceptions that occur: [sender.DoesNotExist] (a subclass of
    [Exception]) and any other [Exception]; [str(e)] is the detail. *)
Inductive exn : Type :=
| DoesNotExist (detail : string)
| Exception (detail : string).

Definition str_of_exn (e : exn) : string :=
  match e with
  | DoesNotExist d => d
  | Exception d => d
  end.

(** [except sender.DoesNotExist] *)
Definition isinstance_DoesNotExist (e : exn) : bool :=
  match e with
  | DoesNotExist _ => true
  | Exception _ => false
  end.

(** [except Exception] *)
Definition isinstance_Exception (e : exn) : bool := true.

(** [str(n)] for a non-negative [int]. *)
Definition str_of_nat (n : nat) : string :=
  NilEmpty.string_of_uint (Nat.to_uint n).

(** [needle in haystack] *)
Definition contains (haystack needle : string) : Prop :=
  exists pre post, haystack = (pre ++ needle ++ post)%string.

End Py.

(* ================================================================== *)
(** ** A monad for calls on collaborators *)
(* ================================================================== *)

Module Eff.

Section Monad.
Context {event : Type}.

(** A computation reads the trace of events so far, extends it, and
    either returns a value or raises. *)
Definition M (A : Type) : Type :=
  list event -> (Py.exn + A) * list event.

Definition ret {A} (a : A) : M A := fun t => (inr a, t).

Definition raise {A} (e : Py.exn) : M A := fun t => (inl e, t).

Definition bind {A B} (c : M A) (k : A -> M B) : M B :=
  fun t =>
    match c t with
    | (inr a, t') => k a t'
    | (inl e, t') => (inl e, t')
    end.

(** Record one call in the trace. *)
Definition emit (e : event) : M unit := fun t => (inr tt, t ++ [e]).

(** [try: c  except <catches> as e: handler e] *)
Definition try_except {A} (c : M A) (catches : Py.exn -> bool)
           (handler : Py.exn -> M A) : M A :=
  fun t =>
    match c t with
    | (inr a, t') => (inr a, t')
    | (inl e, t') => if catches e then handler e t' else (inl e, t')
    end.

(** [for x in xs: body x] *)
Fixpoint for_each {A} (xs : list A) (body : A -> M unit) : M unit :=
  match xs with
  | [] => ret tt
  | x :: xs' => bind (body x) (fun _ => for_each xs' body)
  end.

(** Run from an empty trace. *)
Definition run {A} (c : M A) : (Py.exn + A) * list event := c [].

End Monad.

Module Notations.
Notation "x <- c ;; k" := (bind c (fun x => k))
  (at level 61, c at next level, right associativity).
Notation "c ;;; k" := (bind c (fun _ => k))
  (at level 61, right associativity).
End Notations.

End Eff.

Import Eff.Notations.

(* ================================================================== *)
(** ** [run_mcdc_demo.py]: the ban-status handler *)
(* ================================================================== *)

Module BanSignal.

Import Py Eff.

(** [class MockUser] *)
Record MockUser : Type := {
  username : string;
  email : string;
  first_name : string;
  last_name : string;
  user_pk : value
}.

(** [MockUser()] with its default arguments. *)
Definition default_user : MockUser :=
  {| username := "testuser"; email := "test@example.com";
     first_name := "Test"; last_name := "User"; user_pk := VInt 1 |}.

(** [class MockUserProfile] *)
Record MockUserProfile : Type := {
  user : MockUser;
  is_banned : bool;
  pk : value
}.

(** [MockUserProfile.save]: a falsy [pk] is the unsaved state. *)
Definition save (self : MockUserProfile) : MockUserProfile :=
  if negb (truthy (pk self))
  then {| user := user self; is_banned := is_banned self; pk := VInt 1 |}
  else self.

(** What [sender.objects.get(pk=...)] does: return a record or raise. *)
Inductive get_result : Type :=
| Returns (previous : MockUserProfile)
| Raises (e : exn).

(** [class MockSender]: [objects.get] is a configurable collaborator. *)
Record Sender : Type := { objects_get : value -> get_result }.

(** Calls on collaborators made by the handlers. *)
Inductive event : Type :=
| EvGet (key : value)                        (* sender.objects.get(pk=key) *)
| EvPrint (line : string)                    (* print(line) *)
| EvBanDelay (e f l : string)                (* send_ban_notification_email.delay *)
| EvUnbanDelay (e f l : string).             (* send_unban_notification_email.delay *)

Definition call_get (sender : Sender) (key : value) : M MockUserProfile :=
  fun t =>
    match objects_get sender key with
    | Returns p => (inr p, t ++ [EvGet key])
    | Raises e => (inl e, t ++ [EvGet key])
    end.

Definition print (line : string) : M (event := event) unit :=
  emit (EvPrint line).

Definition ban_line (u : MockUser) : string :=
  ("MOCK: Enviando email de ban para " ++ email u)%string.

Definition unban_line (u : MockUser) : string :=
  ("MOCK: Enviando email de unban para " ++ email u)%string.

(** The three strings the handler returns. *)
Definition ban_sent : value := VStr "ban_sent".
Definition unban_sent : value := VStr "unban_sent".
Definition no_action : value := VStr "no_action".

(** [def notify_user_ban_status_change(sender, instance, **kwargs)],
    lines 38-66. *)
Definition notify_user_ban_status_change
           (sender : Sender) (instance : MockUserProfile) : M value :=
  (* D1 *)
  if negb (truthy (pk instance)) then ret VNone
  else
    previous <-
      try_except
        (p <- call_get sender (pk instance) ;; ret (Some p))
        isinstance_DoesNotExist
        (fun _ => ret None) ;;
    let u := user instance in
    match previous with
    | Some previous =>                                         (* D2 *)
        if negb (Bool.eqb (is_banned previous) (is_banned instance)) (* D3 *)
        then
          if is_banned instance                                (* D4 *)
          then print (ban_line u) ;;; ret ban_sent
          else print (unban_line u) ;;; ret unban_sent
        else ret no_action
    | None => ret no_action
    end.

(** Return value (or exception) and trace of one invocation. *)
Definition returned (sender : Sender) (instance : MockUserProfile)
  : exn + value :=
  fst (run (notify_user_ban_status_change sender instance)).

Definition trace (sender : Sender) (instance : MockUserProfile)
  : list event :=
  snd (run (notify_user_ban_status_change sender instance)).

(** The calls that announce a notification, and the dispatch calls. *)
Definition is_print (e : event) : bool :=
  match e with EvPrint _ => true | _ => false end.

Definition is_dispatch (e : event) : bool :=
  match e with EvBanDelay _ _ _ | EvUnbanDelay _ _ _ => true | _ => false end.

Definition is_get (e : event) : bool :=
  match e with EvGet _ => true | _ => false end.

(** The handler has two exits on which nothing is announced: the bare
    [return None] of line 44 and the [return "no_action"] of line 66. *)
Definition is_no_action (v : value) : bool :=
  match v with
  | VNone => true
  | VStr s => s =? "no_action"
  | VInt _ => false
  end.

(** What the handler can see of the lookup: a previous record and its
    flag, the not-found signal, or another failure. *)
Inductive lookup_view : Type :=
| Found (previous_is_banned : bool)
| NotFound
| Failed (e : exn).

Definition lookup (sender : Sender) (instance : MockUserProfile)
  : lookup_view :=
  match objects_get sender (pk instance) with
  | Returns p => Found (is_banned p)
  | Raises e => if isinstance_DoesNotExist e then NotFound else Failed e
  end.

(** The other terminal branches: the lookup was made and either signalled
    not-found or returned a record with the same flag. *)
Definition other_terminal_branch
           (sender : Sender) (instance : MockUserProfile) : Prop :=
  truthy (pk instance) = true /\
  (lookup sender instance = NotFound \/
   lookup sender instance = Found (is_banned instance)).

(** The early exit read as returning what the other terminal branches
    return. *)
Definition early_exit_same_as_other_exits : Prop :=
  forall sender instance sender' instance',
    pk instance = VNone ->
    other_terminal_branch sender' instance' ->
    returned sender instance = returned sender' instance'.

(** Two readings in which "the primary key is present" means
    [instance.pk is not None], as in the data model of the
    specification. *)
Definition changed_flag_notifies_when_pk_not_None : Prop :=
  forall sender instance previous,
    pk instance <> VNone ->
    objects_get sender (pk instance) = Returns previous ->
    is_banned previous <> is_banned instance ->
    returned sender instance =
      inr (if is_banned instance then ban_sent else unban_sent).

Definition outcome_function_of_pk_not_None : Prop :=
  forall sender1 instance1 sender2 instance2,
    (pk instance1 = VNone <-> pk instance2 = VNone) ->
    lookup sender1 instance1 = lookup sender2 instance2 ->
    is_banned instance1 = is_banned instance2 ->
    returned sender1 instance1 = returned sender2 instance2.

(** The signal handler itself. *)
Module Signals.

(** Modelled from the spec: [users/signals.py], the handler that calls
    the dispatch collaborator, is not among the sources.  The decision
    cascade D1-D4 is the one of section 4.2, in the form in which the
    docstring of [NotifyUserBanStatusChangeMCDCTests] lists the handler
    (test module, lines 38-54); on a ban it calls
    [send_ban_notification_email.delay(user.email, user.first_name,
    user.last_name)], on an unban the [send_unban_...] counterpart
    (the dispatch collaborator of section 6), and it returns [None]
    on every path. *)
Definition notify_user_ban_status_change
           (sender : Sender) (instance : MockUserProfile) : M value :=
  if negb (truthy (pk instance)) then ret VNone
  else
    previous <-
      try_except
        (p <- call_get sender (pk instance) ;; ret (Some p))
        isinstance_DoesNotExist
        (fun _ => ret None) ;;
    let u := user instance in
    match previous with
    | Some previous =>
        if negb (Bool.eqb (is_banned previous) (is_banned instance))
        then
          if is_banned instance
          then emit (EvBanDelay (email u) (first_name u) (last_name u))
               ;;; ret VNone
          else emit (EvUnbanDelay (email u) (first_name u) (last_name u))
               ;;; ret VNone
        else ret VNone
    | None => ret VNone
    end.

(** The dispatch calls of one invocation, in order. *)
Definition dispatched (sender : Sender) (instance : MockUserProfile)
  : list event :=
  filter is_dispatch
         (snd (run (notify_user_ban_status_change sender instance))).

End Signals.

(** The decision table D1-D4 as a function of what the handler tests:
    truthiness of the key, view of the lookup, flag of the instance. *)
Definition decision (pk_truthy : bool) (l : lookup_view) (banned : bool)
  : exn + value :=
  if negb pk_truthy then inr VNone
  else
    match l with
    | Found previous_is_banned =>
        if negb (Bool.eqb previous_is_banned banned)
        then inr (if banned then ban_sent else unban_sent)
        else inr no_action
    | NotFound => inr no_action
    | Failed e => inl e
    end.

(** Fixtures of [run_mcdc_tests]. *)
Definition profile (banned : bool) (key : value) : MockUserProfile :=
  {| user := default_user; is_banned := banned; pk := key |}.

Definition sender_returning (previous : MockUserProfile) : Sender :=
  {| objects_get := fun _ => Returns previous |}.

Definition sender_raising (e : exn) : Sender :=
  {| objects_get := fun _ => Raises e |}.

End BanSignal.

(* ================================================================== *)
(** ** [chat/tasks.py]: the unread-message task *)
(* ================================================================== *)

Module ChatTasks.

Import Py Eff.

(** The auth user, as far as the task reads it: primary key (through
    [==]) and [email]. *)
Record User : Type := { user_id : Z; user_email : string }.

(** Modelled from the spec: [chat/models.py] is not among the sources.
    A conversation has two participants; a message belongs to one
    conversation and has a sender and a content.  Foreign keys are the
    primary keys of the rows they point to, which is what Django's
    [==], [hash] and [filter(field=obj)] compare. *)
Record ChatRoom : Type := {
  room_id : Z;
  participant_1 : Z;
  participant_2 : Z
}.

Record Message : Type := { room : Z; sender : Z; content : string }.

(** The tables the task queries. *)
Record Database : Type := {
  users : list User;
  chatrooms : list ChatRoom;
  messages : list Message
}.

(** [settings] *)
Record Settings : Type := { DEFAULT_FROM_EMAIL : string }.

(** The arguments of one [send_mail] call. *)
Record Mail : Type := {
  subject : string;
  message : string;
  from_email : string;
  recipient_list : list string
}.

Inductive event : Type :=
| EvSendMail (m : Mail) (delivered : bool)   (* send_mail(...) *)
| EvPrint (line : string).                   (* print(line) *)

(** The delivery collaborator: given the calls made so far and a mail,
    it delivers ([None]) or raises. *)
Record MailBackend : Type := {
  send_mail_outcome : list event -> Mail -> option exn
}.

Definition send_mail (backend : MailBackend) (m : Mail) : M unit :=
  fun t =>
    match send_mail_outcome backend t m with
    | None => (inr tt, t ++ [EvSendMail m true])
    | Some e => (inl e, t ++ [EvSendMail m false])
    end.

Definition print (line : string) : M (event := event) unit :=
  emit (EvPrint line).

(** [ChatRoom.objects.filter(participant_1=user)] and its twin. *)
Definition chatrooms_as_p1 (db : Database) (user : User) : list ChatRoom :=
  filter (fun c => participant_1 c =? user_id user)%Z (chatrooms db).

Definition chatrooms_as_p2 (db : Database) (user : User) : list ChatRoom :=
  filter (fun c => participant_2 c =? user_id user)%Z (chatrooms db).

(** [Model.__eq__]: same primary key. *)
Definition model_eqb (a b : ChatRoom) : bool := (room_id a =? room_id b)%Z.

(** [list(set(l))]: one representative per primary key.  Python fixes no
    iteration order for a set; the task only sums over it, and the sum
    does not depend on the order ([count_over_permutation] below). *)
Fixpoint list_set (l : list ChatRoom) : list ChatRoom :=
  match l with
  | [] => []
  | c :: l' => c :: filter (fun d => negb (model_eqb c d)) (list_set l')
  end.

Definition all_chatrooms (db : Database) (user : User) : list ChatRoom :=
  list_set (chatrooms_as_p1 db user ++ chatrooms_as_p2 db user).

(** Lines 21-25. *)
Definition other_participant (chatroom : ChatRoom) (user : User)
  : option Z :=
  if (participant_1 chatroom =? user_id user)%Z
  then Some (participant_2 chatroom)
  else if (participant_2 chatroom =? user_id user)%Z
       then Some (participant_1 chatroom)
       else None.

(** [Message.objects.filter(room=chatroom, sender=s).count()] *)
Definition message_count (db : Database) (chatroom : ChatRoom) (s : Z)
  : nat :=
  List.length (filter (fun m => (room m =? room_id chatroom)%Z
                           && (sender m =? s)%Z)
                 (messages db)).

(** One turn of the inner loop, lines 20-28. *)
Definition add_chatroom (db : Database) (user : User)
           (new_messages_count : nat) (chatroom : ChatRoom) : nat :=
  match other_participant chatroom user with
  | Some other => new_messages_count + message_count db chatroom other
  | None => new_messages_count
  end.

(** What one room adds to the count. *)
Definition room_unread (db : Database) (user : User) (c : ChatRoom) : nat :=
  add_chatroom db user 0 c.

(** Over a given sequence of rooms. *)
Definition count_over (db : Database) (user : User)
           (rooms : list ChatRoom) : nat :=
  fold_left (add_chatroom db user) rooms 0.

Definition new_messages_count (db : Database) (user : User) : nat :=
  count_over db user (all_chatrooms db user).

(** Lines 31-34. *)
Definition notification (settings : Settings) (user : User) (n : nat)
  : Mail :=
  {| subject := ("Você tem novas mensagens (" ++ str_of_nat n ++ ")")%string;
     message := ("Você tem " ++ str_of_nat n ++
                 " novas mensagens não lidas. Acesse o AcheiUnB para visualizá-las.")%string;
     from_email := DEFAULT_FROM_EMAIL settings;
     recipient_list := [user_email user] |}.

Definition error_line (user : User) (e : exn) : string :=
  ("Erro ao enviar e-mail para " ++ user_email user ++ ": "
     ++ str_of_exn e)%string.

(** The body of the outer loop, lines 14-38. *)
Definition notify_user (settings : Settings) (backend : MailBackend)
           (db : Database) (user : User) : M unit :=
  let n := new_messages_count db user in
  if (0 <? n)%nat
  then
    try_except
      (send_mail backend (notification settings user n))
      isinstance_Exception
      (fun e => print (error_line user e))
  else ret tt.

(** [def send_new_message_notifications()] *)
Definition send_new_message_notifications
           (settings : Settings) (backend : MailBackend) (db : Database)
  : M unit :=
  for_each (users db) (notify_user settings backend db).

(** Reading a trace: the [send_mail] calls, and the mails delivered. *)
Definition sends (t : list event) : list Mail :=
  flat_map (fun e => match e with EvSendMail m _ => [m] | _ => [] end) t.

Definition outbox (t : list event) : list Mail :=
  flat_map (fun e => match e with EvSendMail m true => [m] | _ => [] end) t.


(** The mails the task owes a user: one when the count is positive. *)
Definition mails_for (settings : Settings) (db : Database) (user : User)
  : list Mail :=
  if (0 <? new_messages_count db user)%nat
  then [notification settings user (new_messages_count db user)]
  else [].

(** *** The count in the words of the specification *)

(** [user] is a participant of [c]. *)
Definition participates (user : User) (c : ChatRoom) : bool :=
  (participant_1 c =? user_id user)%Z || (participant_2 c =? user_id user)%Z.

(** The participant of [c] other than [user]. *)
Definition the_other (user : User) (c : ChatRoom) : Z :=
  if (participant_1 c =? user_id user)%Z
  then participant_2 c else participant_1 c.

(** Messages of conversation [c] authored by [author]. *)
Definition authored_in (db : Database) (c : ChatRoom) (author : Z)
  : list Message :=
  filter (fun m => (room m =? room_id c)%Z && (sender m =? author)%Z)
         (messages db).

(** Sum, over the conversations in which [user] participates, of the
    number of messages authored by the other participant. *)
Definition unread_count (db : Database) (user : User) : nat :=
  list_sum
    (map (fun c => List.length (authored_in db c (the_other user c)))
         (filter (participates user) (chatrooms db))).

(** Data-model invariants: primary keys identify rooms; the two
    participants of a conversation are distinct. *)
Definition unique_room_ids (db : Database) : Prop :=
  NoDup (map room_id (chatrooms db)).

Definition distinct_participants (c : ChatRoom) : Prop :=
  participant_1 c <> participant_2 c.

(** Fixtures of [NotificationTest]. *)
Definition user1 : User := {| user_id := 1; user_email := "test1@example.com" |}.
Definition user2 : User := {| user_id := 2; user_email := "test2@example.com" |}.
Definition chatroom : ChatRoom :=
  {| room_id := 1; participant_1 := 1; participant_2 := 2 |}.

Definition test_db (msgs : list Message) : Database :=
  {| users := [user1; user2]; chatrooms := [chatroom]; messages := msgs |}.

Definition two_from_user2 : list Message :=
  [ {| room := 1; sender := 2; content := "Hello user1!" |};
    {| room := 1; sender := 2; content := "How are you?" |} ].

Definition test_settings : Settings :=
  {| DEFAULT_FROM_EMAIL := "webmaster@localhost" |}.

(** A backend that delivers everything, and one that refuses every mail
    addressed to a given address. *)
Definition locmem : MailBackend := {| send_mail_outcome := fun _ _ => None |}.

Definition refusing (address detail : string) : MailBackend :=
  {| send_mail_outcome := fun _ m =>
       if existsb (String.eqb address) (recipient_list m)
       then Some (Exception detail) else None |}.

(** A message each way in the one room. *)
Definition one_each_way : list Message :=
  [ {| room := 1; sender := 2; content := "Hello user1!" |};
    {| room := 1; sender := 1; content := "Hello user2!" |} ].

End ChatTasks.

(* ================================================================== *)
(** ** [run_mcdc_demo.py]: the summary of [run_mcdc_tests] *)
(* ================================================================== *)

Module DemoScript.

(** [results]: one [(name, success)] pair per test case. *)
Definition Results : Type := list (string * bool).

(** [passed = sum(1 for _, success in results if success)], line 158. *)
Definition passed (results : Results) : nat :=
  list_sum (map (fun _ => 1) (filter (fun r => snd r) results)).

(** [total = len(results)], line 159. *)
Definition total (results : Results) : nat := List.length results.

(** The line printed for one entry, lines 161-163. *)
Definition status_line (r : string * bool) : string :=
  (fst r ++ ": " ++ (if snd r then "PASSOU" else "FALHOU"))%string.

(** [return passed == total], line 173. *)
Definition all_passed (results : Results) : bool :=
  (passed results =? total results)%nat.

(** The exit status of the script, lines 221-229. *)
Definition exit_status (success : bool) : Z := if success then 0%Z else 1%Z.

End DemoScript.

(* ================================================================== *)
(** ** Changes to the tables the unread-message task reads *)
(* ================================================================== *)

Module ChatData.

Import ChatTasks.

(** [Message.objects.create(room=..., sender=..., content=...)], as the
    tests do it: one more row in the message table. *)
Definition with_message (db : Database) (msg : Message) : Database :=
  {| users := users db;
     chatrooms := chatrooms db;
     messages := messages db ++ [msg] |}.

(** The same conversation with its two participants in the other order. *)
Definition swap_participants (c : ChatRoom) : ChatRoom :=
  {| room_id := room_id c;
     participant_1 := participant_2 c;
     participant_2 := participant_1 c |}.

(** The database in which the rooms selected by [which] were created with
    their participants in the other order. *)
Definition with_swapped (which : ChatRoom -> bool) (db : Database)
  : Database :=
  {| users := users db;
     chatrooms := map (fun c => if which c then swap_participants c else c)
                      (chatrooms db);
     messages := messages db |}.

End ChatData.

(* ================================================================== *)
(** ** Properties of the ban-status handler *)
(* ================================================================== *)

Module BanSignalFacts.

Import Py Eff BanSignal.

Ltac unfold_handler :=
  unfold returned, trace, Signals.dispatched, run,
    notify_user_ban_status_change, Signals.notify_user_ban_status_change,
    bind, try_except, call_get, print, emit, ret.

Section Paths.
Variables (sender : Sender) (instance : MockUserProfile).

(** D1 taken: nothing is called. *)
Lemma run_early_exit :
  truthy (pk instance) = false ->
  run (notify_user_ban_status_change sender instance) = (inr VNone, []).
Proof.
  intros Hpk. unfold_handler. rewrite Hpk. reflexivity.
Qed.

(** D1 not taken, the lookup raises [DoesNotExist]. *)
Lemma run_not_found d :
  truthy (pk instance) = true ->
  objects_get sender (pk instance) = Raises (DoesNotExist d) ->
  run (notify_user_ban_status_change sender instance)
  = (inr no_action, [EvGet (pk instance)]).
Proof.
  intros Hpk Hget. unfold_handler. rewrite Hpk, Hget. reflexivity.
Qed.

(** D1 not taken, the lookup raises something else: it propagates. *)
Lemma run_lookup_failed d :
  truthy (pk instance) = true ->
  objects_get sender (pk instance) = Raises (Exception d) ->
  run (notify_user_ban_status_change sender instance)
  = (inl (Exception d), [EvGet (pk instance)]).
Proof.
  intros Hpk Hget. unfold_handler. rewrite Hpk, Hget. reflexivity.
Qed.

(** D1 not taken, a previous record is found, the flags agree. *)
Lemma run_same_flag previous :
  truthy (pk instance) = true ->
  objects_get sender (pk instance) = Returns previous ->
  is_banned previous = is_banned instance ->
  run (notify_user_ban_status_change sender instance)
  = (inr no_action, [EvGet (pk instance)]).
Proof.
  intros Hpk Hget Hflag. unfold_handler. rewrite Hpk, Hget. simpl.
  rewrite Hflag, Bool.eqb_reflx. reflexivity.
Qed.

(** D1 not taken, a previous record is found, the flags differ. *)
Lemma run_changed_flag previous :
  truthy (pk instance) = true ->
  objects_get sender (pk instance) = Returns previous ->
  is_banned previous <> is_banned instance ->
  run (notify_user_ban_status_change sender instance)
  = (inr (if is_banned instance then ban_sent else unban_sent),
     [EvGet (pk instance);
      EvPrint (if is_banned instance
               then ban_line (user instance)
               else unban_line (user instance))]).
Proof.
  intros Hpk Hget Hflag. unfold_handler. rewrite Hpk, Hget. simpl.
  destruct (is_banned previous), (is_banned instance);
    try congruence; reflexivity.
Qed.

(** A value that is set and falsy is not [None]. *)
Lemma truthy_not_None : truthy (pk instance) = true -> pk instance <> VNone.
Proof. intros H E. rewrite E in H. discriminate. Qed.

End Paths.

(** The dispatching handler decides as the demonstration handler does. *)
Section Dispatch.
Variables (sender : Sender) (instance : MockUserProfile).

Lemma dispatched_early_exit :
  truthy (pk instance) = false -> Signals.dispatched sender instance = [].
Proof.
  intros Hpk. unfold_handler. rewrite Hpk. reflexivity.
Qed.

Lemma dispatched_raises e :
  truthy (pk instance) = true ->
  objects_get sender (pk instance) = Raises e ->
  Signals.dispatched sender instance = [].
Proof.
  intros Hpk Hget. unfold_handler. rewrite Hpk, Hget.
  destruct e; reflexivity.
Qed.

Lemma dispatched_same_flag previous :
  truthy (pk instance) = true ->
  objects_get sender (pk instance) = Returns previous ->
  is_banned previous = is_banned instance ->
  Signals.dispatched sender instance = [].
Proof.
  intros Hpk Hget Hflag. unfold_handler. rewrite Hpk, Hget. simpl.
  rewrite Hflag, Bool.eqb_reflx. reflexivity.
Qed.

Lemma dispatched_changed_flag previous :
  truthy (pk instance) = true ->
  objects_get sender (pk instance) = Returns previous ->
  is_banned previous <> is_banned instance ->
  Signals.dispatched sender instance
  = [if is_banned instance
     then EvBanDelay (email (user instance)) (first_name (user instance))
                     (last_name (user instance))
     else EvUnbanDelay (email (user instance)) (first_name (user instance))
                       (last_name (user instance))].
Proof.
  intros Hpk Hget Hflag. unfold_handler. rewrite Hpk, Hget. simpl.
  destruct (is_banned previous), (is_banned instance);
    try congruence; reflexivity.
Qed.

End Dispatch.

(** *** The five cases of [run_mcdc_tests] *)

(** CT1-CT5 give the results the script expects. *)
Example mcdc_cases :
  returned (sender_raising (DoesNotExist "")) (profile false VNone)
  = inr VNone /\
  returned (sender_raising (DoesNotExist "")) (profile false (VInt 1))
  = inr no_action /\
  returned (sender_returning (profile false (VInt 1))) (profile false (VInt 1))
  = inr no_action /\
  returned (sender_returning (profile false (VInt 1))) (profile true (VInt 1))
  = inr ban_sent /\
  returned (sender_returning (profile true (VInt 1))) (profile false (VInt 1))
  = inr unban_sent.
Proof. repeat split. Qed.

(** [save] treats a falsy key as the unsaved state, as D1 does. *)
Lemma save_assigns_key (self : MockUserProfile) :
  truthy (pk (save self)) = true /\
  (truthy (pk self) = true -> save self = self).
Proof.
  unfold save. destruct (truthy (pk self)) eqn:Hpk; simpl; auto.
  split; [reflexivity | discriminate].
Qed.

(** *** The early exit *)

(** C1 (as amended): when [instance.pk] is [None] the handler returns
    [None] at once: no lookup, no print, no dispatch, whatever the sender
    would answer and whatever the flags are.  That result announces no
    action, but it is not the value of the other terminal branches, which
    return the string ["no_action"]. *)
Theorem early_exit_returns_None (sender : Sender) (instance : MockUserProfile) :
  pk instance = VNone ->
  run (notify_user_ban_status_change sender instance) = (inr VNone, []) /\
  (forall sender',
      run (notify_user_ban_status_change sender' instance)
      = run (notify_user_ban_status_change sender instance)) /\
  Signals.dispatched sender instance = [] /\
  is_no_action VNone = true /\
  (forall sender' instance',
      other_terminal_branch sender' instance' ->
      returned sender' instance' = inr no_action /\
      returned sender' instance' <> returned sender instance).
Proof.
  intros Hnone.
  assert (Hpk : truthy (pk instance) = false) by (rewrite Hnone; reflexivity).
  assert (Hrun := run_early_exit sender instance Hpk).
  repeat split.
  - exact Hrun.
  - intros sender'. rewrite Hrun. apply run_early_exit. exact Hpk.
  - apply dispatched_early_exit. exact Hpk.
  - destruct H as [Hpk' Hview]. unfold returned, lookup in *.
    destruct (objects_get sender' (pk instance')) as [p | [d | d]] eqn:Hget;
      simpl in Hview.
    + destruct Hview as [Hv | Hv]; [discriminate | ].
      injection Hv as Hv.
      rewrite (run_same_flag sender' instance' p Hpk' Hget Hv). reflexivity.
    + rewrite (run_not_found sender' instance' d Hpk' Hget). reflexivity.
    + destruct Hview; discriminate.
  - destruct H as [Hpk' Hview]. unfold returned, lookup in *. rewrite Hrun.
    destruct (objects_get sender' (pk instance')) as [p | [d | d]] eqn:Hget;
      simpl in Hview.
    + destruct Hview as [Hv | Hv]; [discriminate | ].
      injection Hv as Hv.
      rewrite (run_same_flag sender' instance' p Hpk' Hget Hv).
      simpl. discriminate.
    + rewrite (run_not_found sender' instance' d Hpk' Hget).
      simpl. discriminate.
    + destruct Hview; discriminate.
Qed.

Lemma early_exit_returns_None_witness :
  run (notify_user_ban_status_change
         (sender_raising (DoesNotExist "")) (profile false VNone))
  = (inr VNone, []).
Proof.
  exact (proj1 (early_exit_returns_None
                  (sender_raising (DoesNotExist "")) (profile false VNone)
                  eq_refl)).
Defined.

(** C1, refuted as stated: CT1 yields [None] where CT2 yields
    ["no_action"]. *)
Lemma early_exit_differs_from_no_action : ~ early_exit_same_as_other_exits.
Proof.
  intros H.
  specialize (H (sender_raising (DoesNotExist "")) (profile false VNone)
                (sender_raising (DoesNotExist "")) (profile false (VInt 1))
                eq_refl).
  assert (Hb : other_terminal_branch (sender_raising (DoesNotExist ""))
                                     (profile false (VInt 1))).
  { split; [reflexivity | left; reflexivity]. }
  specialize (H Hb). vm_compute in H. discriminate.
Qed.

(** C10: the test of D1 is truthiness.  An instance whose [pk] is set but
    falsy ([0], the empty string) takes the early exit: it returns what
    an instance without [pk] returns, and the lookup is never called. *)
Theorem falsy_pk_takes_early_exit (sender : Sender) (instance : MockUserProfile) :
  pk instance <> VNone ->
  truthy (pk instance) = false ->
  run (notify_user_ban_status_change sender instance) = (inr VNone, []) /\
  run (notify_user_ban_status_change sender instance)
  = run (notify_user_ban_status_change sender
           {| user := user instance; is_banned := is_banned instance;
              pk := VNone |}) /\
  filter is_get (trace sender instance) = [] /\
  is_no_action VNone = true /\
  Signals.dispatched sender instance = [].
Proof.
  intros _ Hpk.
  assert (Hrun := run_early_exit sender instance Hpk).
  repeat split.
  - exact Hrun.
  - rewrite Hrun. symmetry. apply run_early_exit. reflexivity.
  - unfold trace. rewrite Hrun. reflexivity.
  - apply dispatched_early_exit. exact Hpk.
Qed.

Lemma falsy_pk_takes_early_exit_witness :
  run (notify_user_ban_status_change
         (sender_returning (profile false (VInt 0))) (profile true (VInt 0)))
  = (inr VNone, []).
Proof.
  refine (proj1 (falsy_pk_takes_early_exit
                   (sender_returning (profile false (VInt 0)))
                   (profile true (VInt 0)) _ eq_refl)).
  simpl. discriminate.
Defined.

(** *** The decision cascade *)

(** The handler's result is the decision table applied to the three
    things it tests. *)
Lemma returned_decision (sender : Sender) (instance : MockUserProfile) :
  returned sender instance
  = decision (truthy (pk instance)) (lookup sender instance)
             (is_banned instance).
Proof.
  unfold returned, decision, lookup.
  destruct (truthy (pk instance)) eqn:Hpk; simpl.
  - destruct (objects_get sender (pk instance)) as [p | [d | d]] eqn:Hget;
      simpl.
    + destruct (Bool.eqb (is_banned p) (is_banned instance)) eqn:Hflag; simpl.
      * apply Bool.eqb_prop in Hflag.
        rewrite (run_same_flag sender instance p Hpk Hget Hflag). reflexivity.
      * apply Bool.eqb_false_iff in Hflag.
        rewrite (run_changed_flag sender instance p Hpk Hget Hflag).
        reflexivity.
    + rewrite (run_not_found sender instance d Hpk Hget). reflexivity.
    + rewrite (run_lookup_failed sender instance d Hpk Hget). reflexivity.
  - rewrite (run_early_exit sender instance Hpk). reflexivity.
Qed.

(** C2 (as amended): when [instance.pk] is truthy, the previous record
    is found and the flags differ, the handler returns ["ban_sent"] if
    the instance is banned and ["unban_sent"] if it is not, after one
    lookup and one line naming the user's address. *)
Theorem changed_flag_notifies
        (sender : Sender) (instance previous : MockUserProfile) :
  truthy (pk instance) = true ->
  objects_get sender (pk instance) = Returns previous ->
  is_banned previous <> is_banned instance ->
  run (notify_user_ban_status_change sender instance)
  = (inr (if is_banned instance then ban_sent else unban_sent),
     [EvGet (pk instance);
      EvPrint (if is_banned instance
               then ban_line (user instance)
               else unban_line (user instance))]).
Proof.
  intros Hpk Hget Hflag. apply run_changed_flag with previous; assumption.
Qed.

(** CT4 of [run_mcdc_tests]. *)
Lemma changed_flag_notifies_witness :
  run (notify_user_ban_status_change
         (sender_returning (profile false (VInt 1))) (profile true (VInt 1)))
  = (inr ban_sent,
     [EvGet (VInt 1);
      EvPrint "MOCK: Enviando email de ban para test@example.com"]).
Proof.
  refine (changed_flag_notifies
            (sender_returning (profile false (VInt 1)))
            (profile true (VInt 1)) (profile false (VInt 1))
            eq_refl eq_refl _).
  simpl. discriminate.
Defined.

(** C2, refuted as stated: a key that is set but falsy ends at D1. *)
Lemma changed_flag_with_pk_zero : ~ changed_flag_notifies_when_pk_not_None.
Proof.
  intros H.
  specialize (H (sender_returning (profile false (VInt 0)))
                (profile true (VInt 0)) (profile false (VInt 0))).
  simpl in H.
  assert (Hr : returned (sender_returning (profile false (VInt 0)))
                        (profile true (VInt 0)) = inr ban_sent).
  { apply H; [discriminate | reflexivity | discriminate]. }
  vm_compute in Hr. discriminate.
Qed.

(** C4: when [instance.pk] is not [None] and the lookup signals
    not-found, the handler returns normally with a no-action value
    (["no_action"]; [None] if the key is falsy and the lookup is skipped),
    the exception does not propagate, and apart from the lookup itself
    no collaborator is called: nothing is printed, nothing dispatched. *)
Theorem not_found_is_no_action
        (sender : Sender) (instance : MockUserProfile) (d : string) :
  pk instance <> VNone ->
  objects_get sender (pk instance) = Raises (DoesNotExist d) ->
  exists v,
    returned sender instance = inr v /\
    is_no_action v = true /\
    v = (if truthy (pk instance) then no_action else VNone) /\
    trace sender instance
    = (if truthy (pk instance) then [EvGet (pk instance)] else []) /\
    Signals.dispatched sender instance = [].
Proof.
  intros _ Hget. unfold returned, trace.
  destruct (truthy (pk instance)) eqn:Hpk.
  - exists no_action.
    rewrite (run_not_found sender instance d Hpk Hget).
    repeat split. apply dispatched_raises with (DoesNotExist d); assumption.
  - exists VNone.
    rewrite (run_early_exit sender instance Hpk).
    repeat split. apply dispatched_early_exit; assumption.
Qed.

(** CT2 of [run_mcdc_tests]. *)
Lemma not_found_is_no_action_witness :
  exists v,
    returned (sender_raising (DoesNotExist "")) (profile false (VInt 1))
    = inr v /\
    is_no_action v = true /\
    v = no_action /\
    trace (sender_raising (DoesNotExist "")) (profile false (VInt 1))
    = [EvGet (VInt 1)] /\
    Signals.dispatched (sender_raising (DoesNotExist ""))
                       (profile false (VInt 1)) = [].
Proof.
  refine (not_found_is_no_action
            (sender_raising (DoesNotExist "")) (profile false (VInt 1)) ""
            _ eq_refl).
  simpl. discriminate.
Defined.

(** C5: when [instance.pk] is not [None], the previous record is found
    and its flag equals the instance's, the handler returns a no-action
    value (["no_action"]; [None] if the key is falsy) and produces no
    notification: nothing is printed, nothing dispatched. *)
Theorem same_flag_is_no_action
        (sender : Sender) (instance previous : MockUserProfile) :
  pk instance <> VNone ->
  objects_get sender (pk instance) = Returns previous ->
  is_banned previous = is_banned instance ->
  exists v,
    returned sender instance = inr v /\
    is_no_action v = true /\
    v = (if truthy (pk instance) then no_action else VNone) /\
    trace sender instance
    = (if truthy (pk instance) then [EvGet (pk instance)] else []) /\
    Signals.dispatched sender instance = [].
Proof.
  intros _ Hget Hflag. unfold returned, trace.
  destruct (truthy (pk instance)) eqn:Hpk.
  - exists no_action.
    rewrite (run_same_flag sender instance previous Hpk Hget Hflag).
    repeat split. apply dispatched_same_flag with previous; assumption.
  - exists VNone.
    rewrite (run_early_exit sender instance Hpk).
    repeat split. apply dispatched_early_exit; assumption.
Qed.

(** CT3 of [run_mcdc_tests]. *)
Lemma same_flag_is_no_action_witness :
  exists v,
    returned (sender_returning (profile false (VInt 1)))
             (profile false (VInt 1)) = inr v /\
    is_no_action v = true /\
    v = no_action /\
    trace (sender_returning (profile false (VInt 1)))
          (profile false (VInt 1)) = [EvGet (VInt 1)] /\
    Signals.dispatched (sender_returning (profile false (VInt 1)))
                       (profile false (VInt 1)) = [].
Proof.
  refine (same_flag_is_no_action
            (sender_returning (profile false (VInt 1)))
            (profile false (VInt 1)) (profile false (VInt 1))
            _ eq_refl eq_refl).
  simpl. discriminate.
Defined.

(** C9 (as amended): the result is a function of the truthiness of the
    key, of what the lookup answers (found with which flag, not found,
    failed) and of the instance's flag: two invocations that agree on
    these return the same value or raise the same exception. *)
Theorem outcome_function_of_decisions
        (sender1 : Sender) (instance1 : MockUserProfile)
        (sender2 : Sender) (instance2 : MockUserProfile) :
  truthy (pk instance1) = truthy (pk instance2) ->
  lookup sender1 instance1 = lookup sender2 instance2 ->
  is_banned instance1 = is_banned instance2 ->
  returned sender1 instance1 = returned sender2 instance2.
Proof.
  intros Hpk Hview Hflag.
  rewrite !returned_decision, Hpk, Hview, Hflag. reflexivity.
Qed.

Lemma outcome_function_of_decisions_witness :
  returned (sender_returning (profile false (VInt 1))) (profile true (VInt 1))
  = returned (sender_returning (profile false (VInt 7))) (profile true (VStr "k")).
Proof.
  exact (outcome_function_of_decisions
           (sender_returning (profile false (VInt 1))) (profile true (VInt 1))
           (sender_returning (profile false (VInt 7))) (profile true (VStr "k"))
           eq_refl eq_refl eq_refl).
Defined.

(** C9, refuted as stated: two keys that are both set, the same lookup
    answer and the same flags, different results. *)
Lemma outcome_differs_for_set_keys : ~ outcome_function_of_pk_not_None.
Proof.
  intros H.
  specialize (H (sender_returning (profile false (VInt 1)))
                (profile true (VInt 0))
                (sender_returning (profile false (VInt 1)))
                (profile true (VInt 1))).
  assert (Hr : returned (sender_returning (profile false (VInt 1)))
                        (profile true (VInt 0))
               = returned (sender_returning (profile false (VInt 1)))
                          (profile true (VInt 1))).
  { apply H; [ split; discriminate | reflexivity | reflexivity ]. }
  vm_compute in Hr. discriminate.
Qed.

(** *** Outcome and dispatch *)

(** C8: on the inputs on which the decision is ["ban_sent"], the signal
    handler makes exactly one dispatch call, the ban one, with the
    user's email, first name and last name, and no unban call; on
    ["unban_sent"] exactly the unban call with the same three arguments
    and no ban call; on a no-action value no dispatch call at all.  The
    demonstration handler announces the same thing with a single printed
    line, or none. *)
Theorem outcome_dispatch (sender : Sender) (instance : MockUserProfile) :
  (returned sender instance = inr ban_sent ->
     Signals.dispatched sender instance
     = [EvBanDelay (email (user instance)) (first_name (user instance))
                   (last_name (user instance))] /\
     filter is_print (trace sender instance)
     = [EvPrint (ban_line (user instance))]) /\
  (returned sender instance = inr unban_sent ->
     Signals.dispatched sender instance
     = [EvUnbanDelay (email (user instance)) (first_name (user instance))
                     (last_name (user instance))] /\
     filter is_print (trace sender instance)
     = [EvPrint (unban_line (user instance))]) /\
  (forall v, returned sender instance = inr v -> is_no_action v = true ->
     Signals.dispatched sender instance = [] /\
     filter is_print (trace sender instance) = []).
Proof.
  unfold returned, trace.
  destruct (truthy (pk instance)) eqn:Hpk.
  - destruct (objects_get sender (pk instance)) as [p | e] eqn:Hget.
    + destruct (Bool.bool_dec (is_banned p) (is_banned instance))
        as [Hflag | Hflag].
      * rewrite (run_same_flag sender instance p Hpk Hget Hflag).
        rewrite (dispatched_same_flag sender instance p Hpk Hget Hflag).
        simpl. repeat split; intros; try discriminate.
      * rewrite (run_changed_flag sender instance p Hpk Hget Hflag).
        rewrite (dispatched_changed_flag sender instance p Hpk Hget Hflag).
        destruct (is_banned instance); simpl;
          repeat split; intros; try discriminate;
          match goal with
          | H : inr _ = inr ?v, H' : is_no_action ?v = true |- _ =>
              injection H as <-; discriminate H'
          end.
    + rewrite (dispatched_raises sender instance e Hpk Hget).
      destruct e as [d | d].
      * rewrite (run_not_found sender instance d Hpk Hget).
        simpl. repeat split; intros; discriminate.
      * rewrite (run_lookup_failed sender instance d Hpk Hget).
        simpl. repeat split; intros; discriminate.
  - rewrite (run_early_exit sender instance Hpk).
    rewrite (dispatched_early_exit sender instance Hpk).
    simpl. repeat split; intros; discriminate.
Qed.

(** CT4 and CT5 of the test module: one call, with the three fields. *)
Lemma outcome_dispatch_witness :
  Signals.dispatched (sender_returning (profile false (VInt 1)))
                     (profile true (VInt 1))
  = [EvBanDelay "test@example.com" "Test" "User"] /\
  Signals.dispatched (sender_returning (profile true (VInt 1)))
                     (profile false (VInt 1))
  = [EvUnbanDelay "test@example.com" "Test" "User"].
Proof.
  split.
  - exact (proj1 (proj1 (outcome_dispatch
                           (sender_returning (profile false (VInt 1)))
                           (profile true (VInt 1))) eq_refl)).
  - exact (proj1 (proj1 (proj2 (outcome_dispatch
                                  (sender_returning (profile true (VInt 1)))
                                  (profile false (VInt 1)))) eq_refl)).
Defined.

End BanSignalFacts.

(* ================================================================== *)
(** ** Properties of the unread-message task *)
(* ================================================================== *)

Module ChatTasksFacts.

Import Py Eff ChatTasks.

(** *** Counting *)

Section Counting.
Variables (db : Database) (user : User).

Lemma add_chatroom_acc n c :
  add_chatroom db user n c = n + room_unread db user c.
Proof.
  unfold room_unread, add_chatroom.
  destruct (other_participant c user); lia.
Qed.

Lemma fold_add_chatroom rooms : forall n,
  fold_left (add_chatroom db user) rooms n
  = n + list_sum (map (room_unread db user) rooms).
Proof.
  induction rooms as [| c rooms IH]; intros n; simpl.
  - lia.
  - rewrite IH, add_chatroom_acc. lia.
Qed.

Lemma count_over_sum rooms :
  count_over db user rooms = list_sum (map (room_unread db user) rooms).
Proof. unfold count_over. rewrite fold_add_chatroom. reflexivity. Qed.

Lemma list_sum_permutation (l l' : list nat) :
  Permutation l l' -> list_sum l = list_sum l'.
Proof.
  induction 1; simpl; lia.
Qed.

(** The order in which the set of rooms is traversed is immaterial. *)
Lemma count_over_permutation rooms rooms' :
  Permutation rooms rooms' ->
  count_over db user rooms = count_over db user rooms'.
Proof.
  intros HP. rewrite !count_over_sum.
  apply list_sum_permutation, Permutation_map, HP.
Qed.

(** In a room of [user], the code's "other participant" is the
    specification's. *)
Lemma other_participant_the_other c :
  participates user c = true ->
  other_participant c user = Some (the_other user c).
Proof.
  unfold participates, other_participant, the_other.
  destruct (participant_1 c =? user_id user)%Z; simpl; [reflexivity | ].
  intros ->. reflexivity.
Qed.

Lemma other_participant_None c :
  participates user c = false -> other_participant c user = None.
Proof.
  unfold participates, other_participant.
  destruct (participant_1 c =? user_id user)%Z; simpl; [discriminate | ].
  intros ->. reflexivity.
Qed.

Lemma room_unread_authored c :
  participates user c = true ->
  room_unread db user c
  = List.length (authored_in db c (the_other user c)).
Proof.
  intros Hp. unfold room_unread, add_chatroom.
  rewrite (other_participant_the_other c Hp). reflexivity.
Qed.

End Counting.

(** *** [list(set(...))] *)

Lemma list_set_incl l x : In x (list_set l) -> In x l.
Proof.
  revert x. induction l as [| c l IH]; intros x; simpl; [tauto | ].
  intros [-> | Hin]; [now left | ].
  apply filter_In in Hin. right. apply IH, Hin.
Qed.

Lemma list_set_NoDup l : NoDup (list_set l).
Proof.
  induction l as [| c l IH]; simpl; constructor.
  - intros Hin. apply filter_In in Hin. destruct Hin as [_ Hne].
    unfold model_eqb in Hne. rewrite Z.eqb_refl in Hne. discriminate.
  - apply NoDup_filter, IH.
Qed.

Lemma list_set_complete l :
  (forall x y, In x l -> In y l -> room_id x = room_id y -> x = y) ->
  forall x, In x l -> In x (list_set l).
Proof.
  induction l as [| c l IH]; intros Hinj x; simpl; [tauto | ].
  intros [-> | Hin]; [now left | ].
  destruct (model_eqb c x) eqn:Heq.
  - left. apply Hinj; [now left | now right | ].
    apply Z.eqb_eq, Heq.
  - right. apply filter_In. split.
    + apply IH; [ | exact Hin].
      intros a b Ha Hb. apply Hinj; now right.
    + rewrite Heq. reflexivity.
Qed.

(** Primary keys identify the rows of the table. *)
Lemma room_id_injective l :
  NoDup (map room_id l) ->
  forall x y, In x l -> In y l -> room_id x = room_id y -> x = y.
Proof.
  induction l as [| c l IH]; simpl; intros Hnd x y; [tauto | ].
  inversion Hnd as [| ? ? Hnotin Hnd']; subst.
  intros [-> | Hx] [-> | Hy] Hid; auto.
  - exfalso. apply Hnotin. rewrite Hid. apply in_map, Hy.
  - exfalso. apply Hnotin. rewrite <- Hid. apply in_map, Hx.
Qed.

Lemma in_all_chatrooms db user c :
  In c (all_chatrooms db user) ->
  In c (chatrooms db) /\ participates user c = true.
Proof.
  intros Hin. apply list_set_incl, in_app_or in Hin.
  unfold chatrooms_as_p1, chatrooms_as_p2, participates in *.
  destruct Hin as [Hin | Hin]; apply filter_In in Hin;
    destruct Hin as [Hin Hp]; split; try exact Hin; rewrite Hp;
    auto using Bool.orb_true_r.
Qed.

(** With unique primary keys, the rooms the task visits are exactly the
    rooms in which the user participates, each once. *)
Lemma all_chatrooms_permutation db user :
  unique_room_ids db ->
  Permutation (all_chatrooms db user)
              (filter (participates user) (chatrooms db)).
Proof.
  intros Huniq.
  assert (Hinj := room_id_injective _ Huniq).
  apply NoDup_Permutation.
  - apply list_set_NoDup.
  - apply NoDup_filter. eapply NoDup_map_inv. exact Huniq.
  - intros c. split.
    + intros Hin. apply in_all_chatrooms in Hin.
      apply filter_In. exact Hin.
    + intros Hin. apply filter_In in Hin. destruct Hin as [Hin Hp].
      unfold all_chatrooms. apply list_set_complete.
      * intros x y Hx Hy. apply Hinj.
        -- apply in_app_or in Hx.
           destruct Hx as [Hx | Hx]; apply filter_In in Hx; apply Hx.
        -- apply in_app_or in Hy.
           destruct Hy as [Hy | Hy]; apply filter_In in Hy; apply Hy.
      * apply in_or_app. unfold participates in Hp.
        apply Bool.orb_true_iff in Hp.
        destruct Hp as [Hp | Hp]; [left | right];
          apply filter_In; split; assumption.
Qed.

(** The computed count is the count of the specification. *)
Lemma new_messages_count_unread db user :
  unique_room_ids db ->
  new_messages_count db user = unread_count db user.
Proof.
  intros Huniq. unfold new_messages_count, unread_count.
  rewrite (count_over_permutation db user _ _
             (all_chatrooms_permutation db user Huniq)).
  rewrite count_over_sum. f_equal.
  apply map_ext_in. intros c Hin. apply filter_In in Hin.
  apply room_unread_authored, Hin.
Qed.

(** *** Strings *)

Lemma append_assoc (a b c : string) :
  ((a ++ b) ++ c = a ++ b ++ c)%string.
Proof. induction a as [| x a IH]; simpl; [ | rewrite IH]; reflexivity. Qed.

Lemma append_nil_r (a : string) : (a ++ "" = a)%string.
Proof. induction a as [| x a IH]; simpl; [ | rewrite IH]; reflexivity. Qed.

Lemma subject_contains_count settings user n :
  contains (subject (notification settings user n)) (str_of_nat n).
Proof. exists "Você tem novas mensagens (", ")". reflexivity. Qed.

Lemma message_contains_count settings user n :
  contains (message (notification settings user n)) (str_of_nat n).
Proof.
  exists "Você tem ",
    " novas mensagens não lidas. Acesse o AcheiUnB para visualizá-las.".
  reflexivity.
Qed.

Lemma error_line_contains_email user e :
  contains (error_line user e) (user_email user).
Proof.
  exists "Erro ao enviar e-mail para ", (": " ++ str_of_exn e)%string.
  reflexivity.
Qed.

Lemma error_line_contains_detail user e :
  contains (error_line user e) (str_of_exn e).
Proof.
  exists ("Erro ao enviar e-mail para " ++ user_email user ++ ": ")%string, "".
  unfold error_line. rewrite append_nil_r, !append_assoc. reflexivity.
Qed.

(** *** Traces *)

Lemma sends_app t t' : sends (t ++ t') = sends t ++ sends t'.
Proof. unfold sends. apply flat_map_app. Qed.


(** [for] over a concatenation. *)
Lemma for_each_app {event A} (body : A -> M (event := event) unit) l1 l2 t :
  for_each (l1 ++ l2) body t
  = bind (for_each l1 body) (fun _ => for_each l2 body) t.
Proof.
  revert t. induction l1 as [| x l1 IH]; intros t; simpl.
  - reflexivity.
  - unfold bind in *. destruct (body x t) as [[e | []] t1].
    + reflexivity.
    + apply IH.
Qed.

(** *** One turn of the outer loop *)

Section Turn.
Variables (settings : Settings) (backend : MailBackend) (db : Database).
Variable user : User.

Let n := new_messages_count db user.
Let m := notification settings user n.

Lemma notify_user_zero t :
  n = 0 -> notify_user settings backend db user t = (inr tt, t).
Proof.
  unfold n, notify_user. intros ->. reflexivity.
Qed.

Lemma notify_user_positive t :
  0 < n ->
  notify_user settings backend db user t
  = match send_mail_outcome backend t m with
    | None => (inr tt, t ++ [EvSendMail m true])
    | Some e => (inr tt, t ++ [EvSendMail m false; EvPrint (error_line user e)])
    end.
Proof.
  unfold n, m, notify_user. intros Hpos.
  apply Nat.ltb_lt in Hpos. rewrite Hpos.
  unfold try_except, send_mail, print, emit.
  destruct (send_mail_outcome backend t _); simpl.
  - rewrite <- app_assoc. reflexivity.
  - reflexivity.
Qed.

(** Whatever the backend does, a turn returns and has made exactly the
    calls owed to the user. *)
Lemma notify_user_turn t :
  exists evs,
    notify_user settings backend db user t = (inr tt, t ++ evs) /\
    sends evs = mails_for settings db user.
Proof.
  unfold mails_for. fold n. destruct (0 <? n)%nat eqn:Hpos.
  - apply Nat.ltb_lt in Hpos. rewrite (notify_user_positive t Hpos).
    destruct (send_mail_outcome backend t m); eexists; split; reflexivity.
  - apply Nat.ltb_ge in Hpos. exists [].
    rewrite app_nil_r. split; [ | reflexivity].
    apply notify_user_zero. lia.
Qed.

End Turn.

(** *** The whole run *)

Section Run.
Variables (settings : Settings) (backend : MailBackend) (db : Database).

Lemma for_each_notify_user us : forall t,
  exists evs,
    for_each us (notify_user settings backend db) t = (inr tt, t ++ evs) /\
    sends evs = flat_map (mails_for settings db) us.
Proof.
  induction us as [| u us IH]; intros t; simpl.
  - exists []. rewrite app_nil_r. split; reflexivity.
  - destruct (notify_user_turn settings backend db u t) as (e1 & H1 & S1).
    destruct (IH (t ++ e1)) as (e2 & H2 & S2).
    exists (e1 ++ e2). unfold bind. rewrite H1, H2, app_assoc, sends_app.
    split; [reflexivity | congruence].
Qed.

(** A user whose turn changes nothing can be left out of the run. *)
Lemma for_each_skip before u after t :
  (forall t', notify_user settings backend db u t' = (inr tt, t')) ->
  for_each (before ++ u :: after) (notify_user settings backend db) t
  = for_each (before ++ after) (notify_user settings backend db) t.
Proof.
  intros Hskip. rewrite !for_each_app. unfold bind.
  destruct (for_each before _ t) as [[e | []] t1]; [reflexivity | ].
  simpl. unfold bind. rewrite Hskip. reflexivity.
Qed.

End Run.

(** *** The count and the single mail *)

(** C3: the count the task computes for a user is the sum, over the
    conversations in which the user participates, of the number of
    messages authored by the other participant; and when that sum is
    positive the user's turn makes exactly one [send_mail] call, to the
    user's address, with the count in the subject and in the body (the
    mail reaches the outbox when the backend accepts it).  In the run,
    that one call stands between the calls for the users before and
    after. *)
Theorem unread_count_one_email
        (settings : Settings) (backend : MailBackend) (db : Database)
        (user : User) :
  unique_room_ids db ->
  new_messages_count db user = unread_count db user /\
  (0 < unread_count db user ->
     mails_for settings db user
     = [notification settings user (unread_count db user)] /\
     recipient_list (notification settings user (unread_count db user))
     = [user_email user] /\
     contains (subject (notification settings user (unread_count db user)))
              (str_of_nat (unread_count db user)) /\
     contains (message (notification settings user (unread_count db user)))
              (str_of_nat (unread_count db user)) /\
     (forall t, exists log,
         notify_user settings backend db user t = (inr tt, t ++ log) /\
         sends log = [notification settings user (unread_count db user)] /\
         (send_mail_outcome backend t
            (notification settings user (unread_count db user)) = None ->
          outbox log
          = [notification settings user (unread_count db user)])) /\
     (forall before after,
         users db = before ++ user :: after ->
         sends (snd (run (send_new_message_notifications settings backend db)))
         = flat_map (mails_for settings db) before
           ++ [notification settings user (unread_count db user)]
           ++ flat_map (mails_for settings db) after)).
Proof.
  intros Huniq.
  assert (Hcount := new_messages_count_unread db user Huniq).
  split; [exact Hcount | ].
  intros Hpos.
  assert (Hmails : mails_for settings db user
                   = [notification settings user (unread_count db user)]).
  { unfold mails_for. rewrite Hcount.
    apply Nat.ltb_lt in Hpos. rewrite Hpos. reflexivity. }
  split; [exact Hmails | ].
  split; [reflexivity | ].
  split; [apply subject_contains_count | ].
  split; [apply message_contains_count | ].
  split.
  - intros t. rewrite <- Hcount in *.
    rewrite (notify_user_positive settings backend db user t Hpos).
    destruct (send_mail_outcome backend t _) as [e | ];
      eexists; split; try reflexivity; split; try reflexivity.
    discriminate.
  - intros before after Husers.
    unfold send_new_message_notifications, run.
    destruct (for_each_notify_user settings backend db (users db) [])
      as (log & Hrun & Hsends).
    rewrite Hrun. simpl. rewrite Hsends, Husers, flat_map_app. simpl.
    rewrite Hmails. reflexivity.
Qed.

(** [test_email_notification_sent_for_new_messages]. *)
Lemma unread_count_one_email_witness :
  new_messages_count (test_db two_from_user2) user1 = 2 /\
  sends (snd (run (send_new_message_notifications
                     test_settings locmem (test_db two_from_user2))))
  = [ {| subject := "Você tem novas mensagens (2)";
         message := "Você tem 2 novas mensagens não lidas. Acesse o AcheiUnB para visualizá-las.";
         from_email := "webmaster@localhost";
         recipient_list := ["test1@example.com"] |} ].
Proof.
  assert (Huniq : unique_room_ids (test_db two_from_user2)).
  { unfold unique_room_ids. simpl. constructor; [simpl; tauto | constructor]. }
  destruct (unread_count_one_email test_settings locmem
              (test_db two_from_user2) user1 Huniq) as [Hcount Hmail].
  split; [exact Hcount | ].
  assert (Hpos : 0 < unread_count (test_db two_from_user2) user1)
    by (vm_compute; lia).
  destruct (Hmail Hpos) as (_ & _ & _ & _ & _ & Hrun).
  exact (Hrun [] [user2] eq_refl).
Defined.

(** *** No mail for a count of zero *)

Lemma count_over_zero db user rooms :
  (forall c, In c rooms -> room_unread db user c = 0) ->
  count_over db user rooms = 0.
Proof.
  intros Hzero. rewrite count_over_sum.
  induction rooms as [| c rooms IH]; simpl; [reflexivity | ].
  rewrite Hzero by now left. apply IH. intros d Hd. apply Hzero. now right.
Qed.

Lemma filter_none {A} (f : A -> bool) l :
  (forall x, In x l -> f x = false) -> filter f l = [].
Proof.
  induction l as [| x l IH]; simpl; intros Hf; [reflexivity | ].
  rewrite Hf by now left. apply IH. intros y Hy. apply Hf. now right.
Qed.

(** In a well-formed room of [user], the other participant is someone
    else. *)
Lemma the_other_is_other user c :
  participates user c = true -> distinct_participants c ->
  the_other user c <> user_id user.
Proof.
  unfold participates, the_other, distinct_participants.
  destruct (participant_1 c =? user_id user)%Z eqn:H1; simpl.
  - apply Z.eqb_eq in H1. congruence.
  - intros _ _. apply Z.eqb_neq, H1.
Qed.

(** C6: a user whose computed count is zero gets no mail: the turn makes
    no call at all, and the run is the run without that user.  The count
    is zero for a user who participates in no conversation, and for a
    user who authored every message of the conversations they share
    with someone else. *)
Theorem zero_count_no_email
        (settings : Settings) (backend : MailBackend) (db : Database)
        (user : User) :
  (new_messages_count db user = 0 ->
     mails_for settings db user = [] /\
     (forall t, notify_user settings backend db user t = (inr tt, t)) /\
     (forall before after t,
         for_each (before ++ user :: after)
                  (notify_user settings backend db) t
         = for_each (before ++ after) (notify_user settings backend db) t)) /\
  ((forall c, In c (chatrooms db) -> participates user c = false) ->
     new_messages_count db user = 0) /\
  ((forall c, In c (chatrooms db) -> participates user c = true ->
              distinct_participants c /\
              forall msg, In msg (messages db) -> room msg = room_id c ->
                          sender msg = user_id user) ->
     new_messages_count db user = 0).
Proof.
  split; [ | split].
  - intros Hzero.
    assert (Hturn : forall t,
               notify_user settings backend db user t = (inr tt, t)).
    { intros t. apply notify_user_zero. exact Hzero. }
    split; [ | split].
    + unfold mails_for. rewrite Hzero. reflexivity.
    + exact Hturn.
    + intros before after t. apply for_each_skip. exact Hturn.
  - intros Hnone. apply count_over_zero. intros c Hin.
    apply in_all_chatrooms in Hin. destruct Hin as [Hin Hp].
    rewrite (Hnone c Hin) in Hp. discriminate.
  - intros Hown. apply count_over_zero. intros c Hin.
    apply in_all_chatrooms in Hin. destruct Hin as [Hin Hp].
    destruct (Hown c Hin Hp) as [Hdist Hmsgs].
    rewrite (room_unread_authored db user c Hp).
    unfold authored_in. rewrite filter_none; [reflexivity | ].
    intros msg Hmsg.
    destruct (room msg =? room_id c)%Z eqn:Hroom; [ | reflexivity].
    apply Z.eqb_eq in Hroom. simpl.
    rewrite (Hmsgs msg Hmsg Hroom).
    apply Z.eqb_neq. intros Heq.
    apply (the_other_is_other user c Hp Hdist). symmetry. exact Heq.
Qed.

(** [test_no_email_sent_if_no_new_messages], and the silent user of the
    other test. *)
Lemma zero_count_no_email_witness :
  run (notify_user test_settings locmem (test_db []) user1) = (inr tt, []) /\
  run (notify_user test_settings locmem (test_db two_from_user2) user2)
  = (inr tt, []).
Proof.
  split.
  - exact (proj1 (proj2 (proj1 (zero_count_no_email
                                  test_settings locmem (test_db []) user1)
                               eq_refl)) []).
  - exact (proj1 (proj2 (proj1 (zero_count_no_email
                                  test_settings locmem
                                  (test_db two_from_user2) user2)
                               eq_refl)) []).
Defined.

(** *** Delivery failures *)

(** C7: when [send_mail] raises for a user, the exception is caught in
    that user's turn and a line with the user's address and the error
    detail is printed; the turn returns normally.  From any point of
    the run the loop over the remaining users returns normally and makes
    every call owed to them; so the run never raises, and its calls are
    those owed to all users, whatever the backend refuses. *)
Theorem send_failure_is_isolated
        (settings : Settings) (backend : MailBackend) (db : Database) :
  (forall user t e,
      0 < new_messages_count db user ->
      send_mail_outcome backend t
        (notification settings user (new_messages_count db user)) = Some e ->
      notify_user settings backend db user t
      = (inr tt,
         t ++ [EvSendMail
                 (notification settings user (new_messages_count db user))
                 false;
               EvPrint (error_line user e)]) /\
      contains (error_line user e) (user_email user) /\
      contains (error_line user e) (str_of_exn e)) /\
  (forall before user after t,
      exists t1 t2,
        for_each before (notify_user settings backend db) t = (inr tt, t1) /\
        notify_user settings backend db user t1 = (inr tt, t2) /\
        for_each (before ++ user :: after) (notify_user settings backend db) t
        = for_each after (notify_user settings backend db) t2) /\
  (forall us t,
      exists log,
        for_each us (notify_user settings backend db) t = (inr tt, t ++ log) /\
        sends log = flat_map (mails_for settings db) us) /\
  fst (run (send_new_message_notifications settings backend db)) = inr tt /\
  sends (snd (run (send_new_message_notifications settings backend db)))
  = flat_map (mails_for settings db) (users db).
Proof.
  split; [ | split; [ | split; [ | split]]].
  - intros user t e Hpos Hfail.
    rewrite (notify_user_positive settings backend db user t Hpos), Hfail.
    split; [reflexivity | ].
    split; [apply error_line_contains_email | apply error_line_contains_detail].
  - intros before user after t.
    destruct (for_each_notify_user settings backend db before t)
      as (e1 & H1 & _).
    destruct (notify_user_turn settings backend db user (t ++ e1))
      as (e2 & H2 & _).
    exists (t ++ e1), ((t ++ e1) ++ e2).
    split; [exact H1 | ]. split; [exact H2 | ].
    rewrite for_each_app. unfold bind. rewrite H1. simpl.
    unfold bind. rewrite H2. reflexivity.
  - intros us t. apply for_each_notify_user.
  - unfold send_new_message_notifications, run.
    destruct (for_each_notify_user settings backend db (users db) [])
      as (log & Hrun & _).
    rewrite Hrun. reflexivity.
  - unfold send_new_message_notifications, run.
    destruct (for_each_notify_user settings backend db (users db) [])
      as (log & Hrun & Hsends).
    rewrite Hrun. exact Hsends.
Qed.

(** The first user's mail is refused, the second user still gets one. *)
Lemma send_failure_is_isolated_witness :
  run (notify_user test_settings
         (refusing "test1@example.com" "Connection refused")
         (test_db one_each_way) user1)
  = (inr tt,
     [EvSendMail (notification test_settings user1 1) false;
      EvPrint "Erro ao enviar e-mail para test1@example.com: Connection refused"])
  /\
  run (send_new_message_notifications test_settings
         (refusing "test1@example.com" "Connection refused")
         (test_db one_each_way))
  = (inr tt,
     [EvSendMail (notification test_settings user1 1) false;
      EvPrint "Erro ao enviar e-mail para test1@example.com: Connection refused";
      EvSendMail (notification test_settings user2 1) true]).
Proof.
  split.
  - refine (proj1 (proj1 (send_failure_is_isolated
                            test_settings
                            (refusing "test1@example.com" "Connection refused")
                            (test_db one_each_way))
                         user1 [] (Exception "Connection refused") _ eq_refl)).
    vm_compute. lia.
  - reflexivity.
Defined.

End ChatTasksFacts.


(* ================================================================== *)
(** ** Further properties of the ban-status handler and the demo script *)
(* ================================================================== *)

Module BanSignalMore.

Import Py Eff BanSignal BanSignalFacts.

(** The five ways through the handler. *)
Ltac handler_paths sender instance :=
  let Hpk := fresh "Hpk" in
  let Hget := fresh "Hget" in
  let Hflag := fresh "Hflag" in
  let p := fresh "previous" in
  let d := fresh "d" in
  destruct (truthy (pk instance)) eqn:Hpk;
  [ destruct (objects_get sender (pk instance)) as [p | [d | d]] eqn:Hget;
    [ destruct (Bool.bool_dec (is_banned p) (is_banned instance))
        as [Hflag | Hflag];
      [ rewrite (run_same_flag sender instance p Hpk Hget Hflag)
      | rewrite (run_changed_flag sender instance p Hpk Hget Hflag) ]
    | rewrite (run_not_found sender instance d Hpk Hget)
    | rewrite (run_lookup_failed sender instance d Hpk Hget) ]
  | rewrite (run_early_exit sender instance Hpk) ].

(** X1: the handler raises exactly when the key is truthy and the lookup
    raises something other than [DoesNotExist]; it then raises that very
    exception, after the one lookup and without printing. *)
Theorem handler_raises_iff
        (sender : Sender) (instance : MockUserProfile) (e : exn) :
  (returned sender instance = inl e <->
   truthy (pk instance) = true /\
   objects_get sender (pk instance) = Raises e /\
   isinstance_DoesNotExist e = false) /\
  (returned sender instance = inl e ->
   trace sender instance = [EvGet (pk instance)]).
Proof.
  unfold returned, trace.
  handler_paths sender instance; simpl; split;
    try (intros; discriminate);
    try (split; [intros; discriminate | intros (H1 & H2 & H3); try congruence]).
  - injection H2 as <-. discriminate.
  - split.
    + intros H. injection H as <-. auto.
    + intros (_ & H2 & _). congruence.
  - reflexivity.
Qed.

(** X2: a notification is decided only on a real change: ["ban_sent"] is
    returned exactly when the key is truthy, the stored record is not
    banned and the instance is; ["unban_sent"] in the mirror case; and a
    line is printed exactly when one of the two is returned. *)
Theorem notification_only_on_change
        (sender : Sender) (instance : MockUserProfile) :
  (returned sender instance = inr ban_sent <->
   truthy (pk instance) = true /\
   lookup sender instance = Found false /\ is_banned instance = true) /\
  (returned sender instance = inr unban_sent <->
   truthy (pk instance) = true /\
   lookup sender instance = Found true /\ is_banned instance = false) /\
  (filter is_print (trace sender instance) <> [] <->
   returned sender instance = inr ban_sent \/
   returned sender instance = inr unban_sent).
Proof.
  unfold returned, trace, lookup.
  handler_paths sender instance;
    try (destruct (is_banned previous), (is_banned instance));
    simpl; intuition (try discriminate; try congruence).
Qed.

(** X3: the calls of one invocation: the lookup is made exactly once,
    with [instance.pk] as key, when the key is truthy, and not at all
    otherwise; it comes first, followed by at most one printed line; the
    demonstration handler never calls the dispatch tasks. *)
Theorem one_lookup_then_at_most_one_line
        (sender : Sender) (instance : MockUserProfile) :
  filter is_get (trace sender instance)
  = (if truthy (pk instance) then [EvGet (pk instance)] else []) /\
  (exists lines,
      trace sender instance
      = filter is_get (trace sender instance) ++ map EvPrint lines /\
      List.length lines <= 1) /\
  filter is_dispatch (trace sender instance) = [].
Proof.
  unfold trace.
  handler_paths sender instance; simpl;
    (split; [reflexivity | split; [ | reflexivity]]);
    try (exists []; split; [reflexivity | simpl; lia]).
  eexists [_]. split; [reflexivity | simpl; lia].
Qed.

(** X4: [save] is idempotent, keeps the user and the flag, leaves a truthy
    key alone and gives a falsy one the key [1]; afterwards the key is
    truthy. *)
Theorem save_idempotent (self : MockUserProfile) :
  save (save self) = save self /\
  user (save self) = user self /\
  is_banned (save self) = is_banned self /\
  truthy (pk (save self)) = true /\
  pk (save self) = (if truthy (pk self) then pk self else VInt 1).
Proof.
  unfold save. destruct (truthy (pk self)) eqn:Hpk; simpl.
  - rewrite Hpk. repeat split.
  - repeat split.
Qed.

(** X5: a saved profile never takes the early exit: the handler looks up
    its key, whatever the key was before, and decides by the lookup and
    the flag alone. *)
Theorem saved_profile_is_looked_up
        (sender : Sender) (self : MockUserProfile) :
  filter is_get (trace sender (save self)) = [EvGet (pk (save self))] /\
  returned sender (save self)
  = decision true (lookup sender (save self)) (is_banned self).
Proof.
  assert (Hpk : truthy (pk (save self)) = true).
  { unfold save. destruct (truthy (pk self)) eqn:H; simpl; auto. }
  assert (Hflag : is_banned (save self) = is_banned self).
  { unfold save. destruct (truthy (pk self)); reflexivity. }
  split.
  - unfold trace.
    handler_paths sender (save self); try discriminate; reflexivity.
  - rewrite returned_decision, Hpk, Hflag. reflexivity.
Qed.

End BanSignalMore.

Module DemoScriptFacts.

Import DemoScript.

Lemma passed_filter (results : Results) :
  passed results = List.length (filter (fun r => snd r) results).
Proof.
  unfold passed.
  induction (filter (fun r => snd r) results) as [| r l IH]; simpl; auto.
Qed.

Lemma passed_le_total (results : Results) : passed results <= total results.
Proof.
  rewrite passed_filter. unfold total.
  induction results as [| [name ok] l IH]; simpl; [lia | ].
  destruct ok; simpl; lia.
Qed.

(** X6: the script reports success, and exits with status [0], exactly
    when every recorded case succeeded; the number of passed cases never
    exceeds the total. *)
Theorem all_passed_iff (results : Results) :
  passed results <= total results /\
  (all_passed results = true <-> forall r, In r results -> snd r = true) /\
  (exit_status (all_passed results) = 0%Z <->
   forall r, In r results -> snd r = true).
Proof.
  assert (Hiff : all_passed results = true <->
                 forall r, In r results -> snd r = true).
  { unfold all_passed. rewrite Nat.eqb_eq.
    induction results as [| [name ok] l IH].
    - simpl. split; [intros _ r [] | reflexivity].
    - assert (Hle := passed_le_total l).
      rewrite passed_filter in *. unfold total in *. simpl.
      destruct ok; simpl.
      + split.
        * intros H r [<- | Hin]; [reflexivity | ].
          apply IH; [lia | exact Hin].
        * intros H. f_equal. apply IH. intros r Hin. apply H. now right.
      + split; [lia | ].
        intros H. specialize (H (name, false) (or_introl eq_refl)).
        discriminate. }
  split; [apply passed_le_total | split; [exact Hiff | ]].
  rewrite <- Hiff. unfold exit_status.
  destruct (all_passed results); split; intros; try reflexivity; discriminate.
Qed.

End DemoScriptFacts.

(* ================================================================== *)
(** ** Further properties of the unread-message task *)
(* ================================================================== *)

Module ChatTasksMore.

Import Py Eff ChatTasks ChatData ChatTasksFacts.

(** *** The rooms the task visits *)

Lemma NoDup_map_filter {A B} (f : A -> B) (g : A -> bool) l :
  NoDup (map f l) -> NoDup (map f (filter g l)).
Proof.
  induction l as [| x l IH]; simpl; intros Hnd; [constructor | ].
  inversion Hnd as [| ? ? Hnotin Hnd']; subst.
  destruct (g x); simpl; [constructor | ]; auto.
  intros Hin. apply Hnotin. apply in_map_iff in Hin.
  destruct Hin as (y & Hy & Hin). apply filter_In in Hin.
  rewrite <- Hy. apply in_map, Hin.
Qed.

Lemma list_set_distinct_keys l : NoDup (map room_id (list_set l)).
Proof.
  induction l as [| c l IH]; simpl; constructor.
  - intros Hin. apply in_map_iff in Hin. destruct Hin as (d & Hd & Hin).
    apply filter_In in Hin. destruct Hin as [_ Hne].
    unfold model_eqb in Hne. rewrite Hd, Z.eqb_refl in Hne. discriminate.
  - apply NoDup_map_filter, IH.
Qed.

(** X7: the rooms visited for a user have pairwise distinct primary keys,
    are rooms of the table in which the user participates, and the inner
    loop always finds an other participant for them (the guard of line 27
    never fails); with unique primary keys no room of the user is left
    out. *)
Theorem all_chatrooms_invariant (db : Database) (user : User) :
  NoDup (map room_id (all_chatrooms db user)) /\
  (forall c, In c (all_chatrooms db user) ->
             In c (chatrooms db) /\
             participates user c = true /\
             other_participant c user <> None) /\
  (unique_room_ids db ->
   forall c, In c (chatrooms db) -> participates user c = true ->
             In c (all_chatrooms db user)).
Proof.
  split; [apply list_set_distinct_keys | split].
  - intros c Hin. apply in_all_chatrooms in Hin. destruct Hin as [Hin Hp].
    repeat split; try assumption.
    rewrite (other_participant_the_other user c Hp). discriminate.
  - intros Huniq c Hin Hp.
    apply (Permutation_in c
             (Permutation_sym (all_chatrooms_permutation db user Huniq))).
    apply filter_In. split; assumption.
Qed.

(** *** Bounds *)

Lemma list_sum_map_add {A} (a b : A -> nat) l :
  list_sum (map (fun x => a x + b x) l)
  = list_sum (map a l) + list_sum (map b l).
Proof. induction l as [| x l IH]; simpl; lia. Qed.

Lemma list_sum_map_le {A} (a b : A -> nat) l :
  (forall x, In x l -> a x <= b x) ->
  list_sum (map a l) <= list_sum (map b l).
Proof.
  induction l as [| x l IH]; simpl; intros H; [lia | ].
  assert (a x <= b x) by (apply H; now left).
  assert (list_sum (map a l) <= list_sum (map b l))
    by (apply IH; intros y Hy; apply H; now right).
  lia.
Qed.

Lemma list_sum_map_zero {A} (a : A -> nat) l :
  (forall x, In x l -> a x = 0) -> list_sum (map a l) = 0.
Proof.
  induction l as [| x l IH]; simpl; intros H; [reflexivity | ].
  rewrite H by now left. apply IH. intros y Hy. apply H. now right.
Qed.

(** A key selects at most one room. *)
Lemma key_selects_at_most_one rooms (k : Z) :
  NoDup (map room_id rooms) ->
  list_sum (map (fun c => if (k =? room_id c)%Z then 1 else 0) rooms) <= 1.
Proof.
  induction rooms as [| c rooms IH]; simpl; intros Hnd; [lia | ].
  inversion Hnd as [| ? ? Hnotin Hnd']; subst.
  destruct (k =? room_id c)%Z eqn:Hk.
  - apply Z.eqb_eq in Hk. subst k.
    rewrite list_sum_map_zero; [lia | ].
    intros d Hd. destruct (room_id c =? room_id d)%Z eqn:Hcd; [ | reflexivity].
    apply Z.eqb_eq in Hcd. exfalso. apply Hnotin. rewrite Hcd.
    apply in_map, Hd.
  - specialize (IH Hnd'). lia.
Qed.

(** Rooms with distinct keys share no message. *)
Lemma room_messages_le rooms (msgs : list Message) :
  NoDup (map room_id rooms) ->
  list_sum (map (fun c => List.length
                            (filter (fun m => (room m =? room_id c)%Z) msgs))
                rooms)
  <= List.length msgs.
Proof.
  intros Hnd. induction msgs as [| m msgs IH]; simpl.
  - rewrite list_sum_map_zero; auto.
  - rewrite (map_ext _
               (fun c => (if (room m =? room_id c)%Z then 1 else 0)
                         + List.length
                             (filter (fun m' => (room m' =? room_id c)%Z) msgs))).
    + rewrite list_sum_map_add.
      assert (H1 := key_selects_at_most_one rooms (room m) Hnd). lia.
    + intros c. destruct (room m =? room_id c)%Z; reflexivity.
Qed.

Lemma filter_andb_length {A} (f g : A -> bool) l :
  List.length (filter (fun x => f x && g x) l) <= List.length (filter f l).
Proof.
  induction l as [| x l IH]; simpl; [lia | ].
  destruct (f x), (g x); simpl; lia.
Qed.

(** X8: no message is counted twice for a user: the count never exceeds
    the number of rows of the message table, whatever the tables hold. *)
Theorem new_messages_count_le_messages (db : Database) (user : User) :
  new_messages_count db user <= List.length (messages db).
Proof.
  unfold new_messages_count. rewrite count_over_sum.
  etransitivity; [ | apply (room_messages_le (all_chatrooms db user))].
  - apply list_sum_map_le. intros c _.
    unfold room_unread, add_chatroom, message_count.
    destruct (other_participant c user) as [other | ]; simpl; [ | lia].
    apply (filter_andb_length (fun m => (room m =? room_id c)%Z)).
  - apply list_set_distinct_keys.
Qed.

(** *** A new message *)

Lemma authored_in_with_message db msg c author :
  List.length (authored_in (with_message db msg) c author)
  = List.length (authored_in db c author)
    + (if (room msg =? room_id c)%Z && (sender msg =? author)%Z
       then 1 else 0).
Proof.
  unfold authored_in, with_message. simpl.
  rewrite filter_app, length_app. simpl.
  destruct ((room msg =? room_id c)%Z && (sender msg =? author)%Z);
    reflexivity.
Qed.

Lemma unread_count_with_message db msg user :
  unread_count (with_message db msg) user
  = unread_count db user
    + list_sum
        (map (fun c => if (room msg =? room_id c)%Z
                          && (sender msg =? the_other user c)%Z
                       then 1 else 0)
             (filter (participates user) (chatrooms db))).
Proof.
  unfold unread_count. rewrite <- list_sum_map_add.
  f_equal. apply map_ext. intros c. apply authored_in_with_message.
Qed.

Lemma list_sum_map_one {A} (a : A -> nat) l c :
  NoDup l -> In c l -> a c = 1 ->
  (forall x, In x l -> x <> c -> a x = 0) ->
  list_sum (map a l) = 1.
Proof.
  induction l as [| y l IH]; simpl; intros Hnd Hin Hc Hz; [tauto | ].
  inversion Hnd as [| ? ? Hnotin Hnd']; subst.
  destruct Hin as [-> | Hin].
  - rewrite Hc, list_sum_map_zero; [reflexivity | ].
    intros x Hx. apply Hz; [now right | ].
    intros ->. contradiction.
  - rewrite (Hz y) by (auto; intros ->; contradiction).
    apply IH; auto.
Qed.

(** X9: when a message is created in a room of two distinct participants
    by one of them, the count of the other participant grows by exactly
    one and the count of every other user, the author included, stays as
    it was. *)
Theorem new_message_counts_once
        (db : Database) (c : ChatRoom) (msg : Message)
        (author recipient : User) :
  unique_room_ids db ->
  In c (chatrooms db) ->
  distinct_participants c ->
  (participant_1 c = user_id author /\ participant_2 c = user_id recipient) \/
  (participant_2 c = user_id author /\ participant_1 c = user_id recipient) ->
  room msg = room_id c ->
  sender msg = user_id author ->
  new_messages_count (with_message db msg) recipient
  = S (new_messages_count db recipient) /\
  new_messages_count (with_message db msg) author
  = new_messages_count db author /\
  (forall other : User,
      user_id other <> user_id recipient ->
      new_messages_count (with_message db msg) other
      = new_messages_count db other).
Proof.
  intros Huniq Hc Hdist Hpair Hroom Hsender.
  assert (Huniq' : unique_room_ids (with_message db msg)) by exact Huniq.
  assert (Hinj := room_id_injective _ Huniq).
  assert (Hne : user_id author <> user_id recipient).
  { unfold distinct_participants in Hdist.
    destruct Hpair as [[H1 H2] | [H1 H2]]; congruence. }
  assert (Hothers : forall other : User,
             user_id other <> user_id recipient ->
             new_messages_count (with_message db msg) other
             = new_messages_count db other).
  { intros other Hother.
    rewrite !new_messages_count_unread by assumption.
    rewrite unread_count_with_message, list_sum_map_zero; [lia | ].
    intros c' Hin. apply filter_In in Hin. destruct Hin as [Hin Hp].
    destruct (room msg =? room_id c')%Z eqn:Hid; [ | reflexivity].
    apply Z.eqb_eq in Hid.
    assert (c' = c) by (apply Hinj; auto; congruence). subst c'.
    simpl. rewrite Hsender.
    destruct (user_id author =? the_other other c)%Z eqn:Hthe;
      [ | reflexivity].
    apply Z.eqb_eq in Hthe. exfalso.
    unfold participates in Hp. unfold the_other in Hthe.
    apply Bool.orb_true_iff in Hp.
    destruct (participant_1 c =? user_id other)%Z eqn:H1.
    - apply Z.eqb_eq in H1.
      destruct Hpair as [[Ha Hr] | [Ha Hr]]; congruence.
    - destruct Hp as [Hp | Hp]; [discriminate | ].
      apply Z.eqb_eq in Hp.
      destruct Hpair as [[Ha Hr] | [Ha Hr]]; congruence. }
  split; [ | split; [apply Hothers; exact Hne | exact Hothers]].
  rewrite !new_messages_count_unread by assumption.
  rewrite unread_count_with_message.
  rewrite (list_sum_map_one _ _ c); [lia | | | | ].
  - apply NoDup_filter. eapply NoDup_map_inv. exact Huniq.
  - apply filter_In. split; [exact Hc | ].
    unfold participates. apply Bool.orb_true_iff.
    destruct Hpair as [[_ Hr] | [_ Hr]]; [right | left]; apply Z.eqb_eq, Hr.
  - rewrite Hroom, Z.eqb_refl, Hsender. simpl.
    replace (the_other recipient c) with (user_id author);
      [rewrite Z.eqb_refl; reflexivity | ].
    unfold the_other.
    destruct Hpair as [[Ha Hr] | [Ha Hr]].
    + destruct (participant_1 c =? user_id recipient)%Z eqn:H1.
      * apply Z.eqb_eq in H1. congruence.
      * symmetry. exact Ha.
    + rewrite Hr, Z.eqb_refl. symmetry. exact Ha.
  - intros c' Hin Hcc'. apply filter_In in Hin. destruct Hin as [Hin _].
    destruct (room msg =? room_id c')%Z eqn:Hid; [ | reflexivity].
    apply Z.eqb_eq in Hid. exfalso. apply Hcc'.
    apply Hinj; auto. congruence.
Qed.

(** The second message of the test raises [user1]'s count from 1 to 2. *)
Lemma new_message_counts_once_witness :
  new_messages_count
    (with_message (test_db [ {| room := 1; sender := 2;
                                content := "Hello user1!" |} ])
                  {| room := 1; sender := 2; content := "How are you?" |})
    user1
  = 2.
Proof.
  refine (proj1 (new_message_counts_once
                   (test_db [ {| room := 1; sender := 2;
                                 content := "Hello user1!" |} ])
                   chatroom
                   {| room := 1; sender := 2; content := "How are you?" |}
                   user2 user1 _ _ _ _ eq_refl eq_refl)).
  - unfold unique_room_ids. simpl. constructor; [simpl; tauto | constructor].
  - simpl. left. reflexivity.
  - unfold distinct_participants. simpl. lia.
  - right. split; reflexivity.
Defined.

(** *** The order of the two participants *)

Lemma participates_swap user c :
  participates user (swap_participants c) = participates user c.
Proof. unfold participates, swap_participants. simpl. apply Bool.orb_comm. Qed.

Lemma the_other_swap user c :
  participates user c = true ->
  the_other user (swap_participants c) = the_other user c.
Proof.
  unfold participates, the_other, swap_participants. simpl.
  destruct (participant_1 c =? user_id user)%Z eqn:H1,
           (participant_2 c =? user_id user)%Z eqn:H2; simpl;
    try reflexivity; try discriminate.
  apply Z.eqb_eq in H1, H2. congruence.
Qed.

Lemma filter_map_commute {A B} (f : A -> B) (p : B -> bool) l :
  filter p (map f l) = map f (filter (fun x => p (f x)) l).
Proof.
  induction l as [| x l IH]; simpl; [reflexivity | ].
  destruct (p (f x)); simpl; rewrite IH; reflexivity.
Qed.

(** X10: a conversation is an unordered pair: with unique primary keys,
    creating any of the rooms with its two participants in the other
    order changes no user's count. *)
Theorem count_ignores_participant_order
        (which : ChatRoom -> bool) (db : Database) (user : User) :
  unique_room_ids db ->
  new_messages_count (with_swapped which db) user
  = new_messages_count db user.
Proof.
  intros Huniq.
  assert (Huniq' : unique_room_ids (with_swapped which db)).
  { unfold unique_room_ids, with_swapped. simpl. rewrite map_map.
    erewrite map_ext; [exact Huniq | ].
    intros c. destruct (which c); reflexivity. }
  rewrite !new_messages_count_unread by assumption.
  unfold unread_count, with_swapped. simpl.
  rewrite filter_map_commute, map_map.
  erewrite (filter_ext _ (participates user)).
  - f_equal. apply map_ext_in. intros c Hin. apply filter_In in Hin.
    destruct Hin as [_ Hp].
    destruct (which c); [ | reflexivity].
    unfold authored_in. simpl. rewrite (the_other_swap user c Hp).
    reflexivity.
  - intros c. destruct (which c); [apply participates_swap | reflexivity].
Qed.

Lemma count_ignores_participant_order_witness :
  new_messages_count (with_swapped (fun _ => true) (test_db two_from_user2))
                     user1
  = new_messages_count (test_db two_from_user2) user1.
Proof.
  refine (count_ignores_participant_order
            (fun _ => true) (test_db two_from_user2) user1 _).
  unfold unique_room_ids. simpl. constructor; [simpl; tauto | constructor].
Defined.

(** *** A room with one participant twice *)

Lemma list_sum_ge_member (l : list nat) x : In x l -> x <= list_sum l.
Proof.
  induction l as [| y l IH]; simpl; [tauto | ].
  intros [-> | Hin]; [lia | ]. specialize (IH Hin). lia.
Qed.

(** X11: nothing in the task excludes a room whose two participants are
    the same user.  Such a room is visited once, its other participant is
    the user, and the user's own messages in it are counted: one such
    message makes the task owe the user a mail. *)
Theorem own_messages_counted_in_self_room
        (settings : Settings) (db : Database) (user : User)
        (c : ChatRoom) (msg : Message) :
  unique_room_ids db ->
  In c (chatrooms db) ->
  participant_1 c = user_id user ->
  participant_2 c = user_id user ->
  In msg (messages db) ->
  room msg = room_id c ->
  sender msg = user_id user ->
  other_participant c user = Some (user_id user) /\
  List.length (authored_in db c (user_id user)) <= new_messages_count db user /\
  0 < new_messages_count db user /\
  mails_for settings db user
  = [notification settings user (new_messages_count db user)].
Proof.
  intros Huniq Hc H1 H2 Hmsg Hroom Hsender.
  assert (Hother : other_participant c user = Some (user_id user)).
  { unfold other_participant. rewrite H1, Z.eqb_refl, H2. reflexivity. }
  assert (Hp : participates user c = true).
  { unfold participates. rewrite H1, Z.eqb_refl. reflexivity. }
  assert (Hle : List.length (authored_in db c (user_id user))
                <= new_messages_count db user).
  { rewrite (new_messages_count_unread db user Huniq). unfold unread_count.
    apply list_sum_ge_member.
    apply in_map_iff. exists c. split.
    - unfold the_other. rewrite H1, Z.eqb_refl, H2. reflexivity.
    - apply filter_In. split; assumption. }
  assert (Hpos : 0 < List.length (authored_in db c (user_id user))).
  { assert (Hin : In msg (authored_in db c (user_id user))).
    { unfold authored_in. apply filter_In. split; [exact Hmsg | ].
      rewrite Hroom, Hsender, !Z.eqb_refl. reflexivity. }
    destruct (authored_in db c (user_id user)); [destruct Hin | simpl; lia]. }
  repeat split; try assumption; try lia.
  unfold mails_for.
  assert (Hb : (0 <? new_messages_count db user)%nat = true)
    by (apply Nat.ltb_lt; lia).
  rewrite Hb. reflexivity.
Qed.

Lemma own_messages_counted_in_self_room_witness :
  mails_for test_settings
    {| users := [user1];
       chatrooms := [ {| room_id := 5; participant_1 := 1;
                         participant_2 := 1 |} ];
       messages := [ {| room := 5; sender := 1; content := "note" |} ] |}
    user1
  = [notification test_settings user1 1].
Proof.
  refine (proj2 (proj2 (proj2
           (own_messages_counted_in_self_room
              test_settings
              {| users := [user1];
                 chatrooms := [ {| room_id := 5; participant_1 := 1;
                                   participant_2 := 1 |} ];
                 messages := [ {| room := 5; sender := 1;
                                  content := "note" |} ] |}
              user1
              {| room_id := 5; participant_1 := 1; participant_2 := 1 |}
              {| room := 5; sender := 1; content := "note" |}
              _ _ eq_refl eq_refl _ eq_refl eq_refl)))).
  - unfold unique_room_ids. simpl. constructor; [simpl; tauto | constructor].
  - simpl. left. reflexivity.
  - simpl. left. reflexivity.
Defined.

(** *** What a run leaves in the trace *)


Section RunInvariant.
Variables (settings : Settings) (backend : MailBackend) (db : Database).
Variable P : list event -> Prop.
Hypothesis P_nil : P [].
Hypothesis P_app : forall a b, P a -> P b -> P (a ++ b).


End RunInvariant.





(** X14: the task keeps no record of what it has announced: running it
    again on the same tables makes the same calls again, so every user
    with a positive count is mailed once per run. *)
Theorem second_run_sends_again
        (settings : Settings) (backend : MailBackend) (db : Database) :
  exists log1 log2,
    run (send_new_message_notifications settings backend db ;;;
         send_new_message_notifications settings backend db)
    = (inr tt, log1 ++ log2) /\
    sends log1 = flat_map (mails_for settings db) (users db) /\
    sends log2 = flat_map (mails_for settings db) (users db).
Proof.
  unfold run, send_new_message_notifications, bind.
  destruct (for_each_notify_user settings backend db (users db) [])
    as (log1 & H1 & S1).
  destruct (for_each_notify_user settings backend db (users db) ([] ++ log1))
    as (log2 & H2 & S2).
  exists log1, log2. rewrite H1, H2. auto.
Qed.

(** X15: a run mails no one but the users of the table: every call is
    the notification of a user with a positive count, addressed to that
    user alone and sent from [DEFAULT_FROM_EMAIL]; there are at most as
    many calls as users. *)
Theorem mails_only_to_users
        (settings : Settings) (backend : MailBackend) (db : Database) :
  (forall m,
      In m (sends (snd (run (send_new_message_notifications
                               settings backend db)))) ->
      exists user,
        In user (users db) /\
        0 < new_messages_count db user /\
        m = notification settings user (new_messages_count db user) /\
        recipient_list m = [user_email user] /\
        from_email m = DEFAULT_FROM_EMAIL settings) /\
  List.length (sends (snd (run (send_new_message_notifications
                                  settings backend db))))
  <= List.length (users db).
Proof.
  unfold run, send_new_message_notifications.
  destruct (for_each_notify_user settings backend db (users db) [])
    as (log & Hrun & Hsends).
  rewrite Hrun. simpl. rewrite Hsends. split.
  - intros m Hin. apply in_flat_map in Hin. destruct Hin as (u & Hu & Hm).
    unfold mails_for in Hm.
    destruct (0 <? new_messages_count db u)%nat eqn:Hpos; [ | destruct Hm].
    destruct Hm as [<- | []]. apply Nat.ltb_lt in Hpos.
    exists u. repeat split; assumption.
  - clear Hrun Hsends.
    induction (users db) as [| u us IH]; simpl; [lia | ].
    rewrite length_app. unfold mails_for at 1.
    destruct (0 <? new_messages_count db u)%nat; simpl; lia.
Qed.

End ChatTasksMore.
